(** * The Gemini command-line scripts: chatbot.py and list_models.py

    A shallow embedding of the two scripts and the properties of their
    interaction contract.

    Python's [str] is modelled by [string]: a sequence of 8-bit characters,
    read as the code points U+0000 to U+00FF.  The environment is a finite
    map from names to values.  Everything the scripts do to the outside
    (writing to the terminal, reading a line, calling the client library)
    is recorded, in program order, in a trace of events; what the outside
    answers (the lines typed, the replies and failures of the remote
    service) is an argument of the model. *)

From Stdlib Require Import String Ascii List Bool Arith Lia.
From stdpp Require Import base gmap strings list.
Import ListNotations.

Local Open Scope string_scope.
Local Open Scope list_scope.
Local Open Scope nat_scope.

(** ** Text: the [str] methods the scripts use *)

Module Str.

(** [str.isspace] on one character, for the code points below 256:
    TAB, LF, VT, FF, CR, the separators FS, GS, RS and US, the space,
    NEL (U+0085) and the no-break space (U+00A0). *)
Definition isspace (c : ascii) : bool :=
  let n := nat_of_ascii c in
  ((9 <=? n) && (n <=? 13)) || ((28 <=? n) && (n <=? 32))
  || (n =? 133) || (n =? 160).

(** [str.lower] on one character: A to Z, and the capital letters of
    Latin-1 (U+00C0 to U+00DE, the multiplication sign U+00D7 apart),
    move up by 32; every other character is kept. *)
Definition lower_char (c : ascii) : ascii :=
  let n := nat_of_ascii c in
  if ((65 <=? n) && (n <=? 90))
     || ((192 <=? n) && (n <=? 222) && negb (n =? 215))
  then ascii_of_nat (n + 32)
  else c.

Fixpoint lower (s : string) : string :=
  match s with
  | EmptyString => EmptyString
  | String c s' => String (lower_char c) (lower s')
  end.

Fixpoint lstrip (s : string) : string :=
  match s with
  | EmptyString => EmptyString
  | String c s' => if isspace c then lstrip s' else s
  end.

Fixpoint rstrip (s : string) : string :=
  match s with
  | EmptyString => EmptyString
  | String c s' =>
      match rstrip s' with
      | EmptyString => if isspace c then EmptyString else String c EmptyString
      | r => String c r
      end
  end.

(** [s.strip()]: leading and trailing whitespace removed. *)
Definition strip (s : string) : string := rstrip (lstrip s).

(** Every character of [s] is whitespace; true of the empty string. *)
Fixpoint blank (s : string) : bool :=
  match s with
  | EmptyString => true
  | String c s' => isspace c && blank s'
  end.

(** [s * n], the string repeated. *)
Fixpoint mul (s : string) (n : nat) : string :=
  match n with
  | O => EmptyString
  | S n' => s +:+ mul s n'
  end.

(** [t] occurs in [s] (Python's [t in s] on two strings). *)
Definition contains (s t : string) : Prop :=
  exists pre post : string, s = pre +:+ t +:+ post.

(** [not s]: a string is false exactly when it is empty. *)
Definition falsy (s : string) : bool :=
  match s with
  | EmptyString => true
  | String _ _ => false
  end.

End Str.

(** ** Python values the scripts handle *)

(** The line feed, written [\n] in the scripts' string literals. *)
Definition LF : string := String "010"%char EmptyString.

(** An exception object: its class and what [str(e)] gives.  The objects
    of this type stand for instances of [Exception], the class the chat
    loop's handler names. *)
Record exn : Type := Exn { exn_class : string; exn_str : string }.

Definition ValueError (msg : string) : exn := Exn "ValueError" msg.

(** What [input()] raises when the input has ended. *)
Definition EOFError : exn := Exn "EOFError" "EOF when reading a line".

(** The outcome of evaluating an expression that may raise. *)
Inductive result (A : Type) : Type :=
| Returns (a : A)
| Raises (e : exn).
Arguments Returns {A} a.
Arguments Raises {A} e.

(** Sequencing: the first expression that raises ends the evaluation. *)
#[export] Instance result_bind : MBind result := fun A B k r =>
  match r with
  | Returns a => k a
  | Raises e => Raises e
  end.

#[export] Instance result_ret : MRet result := fun A a => Returns a.

(** [try: body / except Exception as e: handler(e)] *)
Definition try_except {A B : Type} (body : result A)
  (done : A -> B) (handler : exn -> B) : B :=
  match body with
  | Returns a => done a
  | Raises e => handler e
  end.

(** An iterator as a [for] loop sees it: it ends, yields an item and goes
    on, or raises. *)
Inductive iterator (A : Type) : Type :=
| StopIteration
| Yields (a : A) (rest : iterator A)
| Fails (e : exn).
Arguments StopIteration {A}.
Arguments Yields {A} a rest.
Arguments Fails {A} e.

(** The iterator over a list, which ends after the last item. *)
Fixpoint iter {A : Type} (l : list A) : iterator A :=
  match l with
  | [] => StopIteration
  | a :: l' => Yields a (iter l')
  end.

(** The items an iterator yields before it ends or raises. *)
Fixpoint yielded {A : Type} (it : iterator A) : list A :=
  match it with
  | Yields a rest => a :: yielded rest
  | _ => []
  end.

(** The exception an iterator ends in, if it raises. *)
Fixpoint failure {A : Type} (it : iterator A) : option exn :=
  match it with
  | StopIteration => None
  | Yields _ rest => failure rest
  | Fails e => Some e
  end.

(** How the process ends: normally (exit status 0), or by an exception no
    handler caught (traceback and a non-zero status). *)
Inductive outcome : Type :=
| Exit0
| Uncaught (e : exn).

(** ** The process environment *)

(** [load_dotenv()]: the variables of the .env file are added to the
    environment; a variable the environment already has keeps its value. *)
Definition load_dotenv (environ dotenv : gmap string string) : gmap string string :=
  environ ∪ dotenv.

(** [os.getenv(name)]: the value, or [None]. *)
Definition getenv (environ : gmap string string) (name : string) : option string :=
  environ !! name.

(** [not v] for a value that is [None] or a string. *)
Definition not_ (v : option string) : bool :=
  match v with
  | None => true
  | Some s => Str.falsy s
  end.

(** ** [repr] of a list of strings, as an f-string renders it *)

Module Repr.

Definition hex_digit (n : nat) : ascii :=
  ascii_of_nat (if n <? 10 then 48 + n else 87 + n).

(** [str.isprintable] on one character, for the code points below 256. *)
Definition isprintable (c : ascii) : bool :=
  let n := nat_of_ascii c in
  ((32 <=? n) && (n <=? 126)) || ((161 <=? n) && negb (n =? 173)).

Fixpoint has (c : ascii) (s : string) : bool :=
  match s with
  | EmptyString => false
  | String d s' => Ascii.eqb c d || has c s'
  end.

Definition squote : ascii := "039"%char.
Definition dquote : ascii := "034"%char.
Definition backslash : ascii := "092"%char.

(** The quote [repr] encloses a string in: the double quote when the
    string has a single quote and no double quote, else the single one. *)
Definition quote_of (s : string) : ascii :=
  if has squote s && negb (has dquote s) then dquote else squote.

Definition char (q c : ascii) : string :=
  let n := nat_of_ascii c in
  if Ascii.eqb c q || Ascii.eqb c backslash then String backslash (String c EmptyString)
  else if n =? 9 then String backslash "t"
  else if n =? 10 then String backslash "n"
  else if n =? 13 then String backslash "r"
  else if isprintable c then String c EmptyString
  else String backslash
         (String "x" (String (hex_digit (n / 16)) (String (hex_digit (n mod 16)) EmptyString))).

Fixpoint chars (q : ascii) (s : string) : string :=
  match s with
  | EmptyString => EmptyString
  | String c s' => char q c +:+ chars q s'
  end.

Definition str (s : string) : string :=
  let q := quote_of s in
  String q (chars q s +:+ String q EmptyString).

Fixpoint join (sep : string) (l : list string) : string :=
  match l with
  | [] => EmptyString
  | [x] => x
  | x :: l' => x +:+ sep +:+ join sep l'
  end.

Definition list_str (l : list string) : string :=
  "[" +:+ join ", " (map str l) +:+ "]".

End Repr.

(** ** The client library, as the scripts drive it *)

(** A reply object; reading its [text] may itself raise (a reply with no
    text part). *)
Record response : Type := Response { text : result string }.

(** A model descriptor of the catalog. *)
Record Model : Type := {
  name : string;
  display_name : string;
  supported_generation_methods : list string
}.

(** The chat side of the library: the state of a conversation session
    object, the object [start_chat(history=[])] creates, and what
    [send_message] answers and leaves the object as.  The session object is
    mutated in place by the library; the model passes its state along. *)
Class ChatService : Type := {
  session : Type;
  new_session : session;
  answer : session -> string -> result response * session
}.

(** The calls into the library. *)
Inductive call : Type :=
| configure (api_key : option string)
| GenerativeModel (model_name system_instruction : string)
| start_chat
| send_message (content : string)
| list_models.

(** The calls that ask the remote service; the others only set up local
    objects. *)
Definition remote (c : call) : bool :=
  match c with
  | send_message _ | list_models => true
  | _ => false
  end.

(** What the process does to the outside, in program order. *)
Inductive event : Type :=
| Printed (s : string)
| Input (prompt : string) (line : option string)
| Call (c : call).

Definition trace : Type := list event.

(** The arguments of the [print] calls of a trace, in order. *)
Fixpoint printed (t : trace) : list string :=
  match t with
  | [] => []
  | Printed s :: t' => s :: printed t'
  | _ :: t' => printed t'
  end.

(** The library calls of a trace, in order. *)
Fixpoint calls (t : trace) : list call :=
  match t with
  | [] => []
  | Call c :: t' => c :: calls t'
  | _ :: t' => calls t'
  end.

(** The remote calls of a trace. *)
Definition remote_calls (t : trace) : list call := List.filter remote (calls t).

(** ** chatbot.py *)

Module Chatbot.

(** The text between the triple quotes: it starts and ends with a line
    feed. *)
Definition CRYPTO_SYSTEM_INSTRUCTION : string :=
  LF +:+ Repr.join LF
    [ "You are a helpful cryptocurrency assistant for a digital wallet application. Your primary role is to:";
      EmptyString;
      "1. Answer questions about cryptocurrencies, blockchain technology, digital wallets, transactions, and related topics";
      "2. Help users understand crypto concepts like Bitcoin, Ethereum, altcoins, NFTs, DeFi, gas fees, wallet security, etc.";
      "3. Provide guidance on using digital wallets safely and securely";
      "4. Explain crypto market trends and trading basics";
      EmptyString;
      "If a user asks about topics unrelated to cryptocurrency:";
      "- Politely acknowledge their question";
      "- Give a brief, friendly response";
      "- Gently redirect the conversation back to crypto topics";
      "- Example: " +:+ String Repr.dquote
        "That's interesting! Though I'm mainly here to help with crypto questions. Speaking of which, is there anything about your digital wallet or cryptocurrency that I can help you with?"
        +:+ String Repr.dquote EmptyString;
      EmptyString;
      "Always be helpful, educational, and encouraging. Keep responses clear and concise.";
      EmptyString ].

(** The value the script binds to [API_KEY]. *)
Definition API_KEY (environ : gmap string string) : option string :=
  getenv environ "GEMINI_API_KEY".

Definition missing_key : exn :=
  ValueError "GEMINI_API_KEY not found. Please add it to your .env file".

Definition exit_keywords : list string := ["quit"; "exit"; "bye"].

Definition prompt : string := LF +:+ "You: ".

Definition bot_line (reply : string) : string := LF +:+ "Bot: " +:+ reply.
Definition error_line (e : exn) : string := LF +:+ "Error: " +:+ exn_str e.

Section Chat.
Context {service : ChatService}.

(** How one pass through the loop body leaves the loop. *)
Inductive control : Type :=
| Continue (chat_session : session)
| Break.

(** The loop body after [input] has returned [line]: what it does, and how
    it leaves the loop. *)
Definition turn (chat_session : session) (line : string) : trace * control :=
  let user_input := Str.strip line in
  if bool_decide (Str.lower user_input ∈ exit_keywords) then
    ([Printed "Goodbye!"], Break)
  else if Str.falsy user_input then
    ([], Continue chat_session)
  else
    let '(sent, chat_session') := answer chat_session user_input in
    let out :=
      try_except (response ← sent; reply ← text response; mret (bot_line reply))
        (fun shown => shown)
        (fun e => error_line e) in
    ([Call (send_message user_input); Printed out], Continue chat_session').

(** [while True]: one pass per line of the input.  When the input has ended,
    [input] raises [EOFError], which nothing catches. *)
Fixpoint loop (chat_session : session) (stdin : list string) : trace * outcome :=
  match stdin with
  | [] => ([Input prompt None], Uncaught EOFError)
  | line :: rest =>
      let '(t, c) := turn chat_session line in
      match c with
      | Break => (Input prompt (Some line) :: t, Exit0)
      | Continue chat_session' =>
          let '(t', o) := loop chat_session' rest in
          (Input prompt (Some line) :: t ++ t', o)
      end
  end.

Definition banner : trace :=
  [ Printed "Crypto Wallet Assistant (type 'quit' to exit)";
    Printed "Ask me anything about cryptocurrency and digital wallets!";
    Printed (Str.mul "-" 50) ].

Definition chat (stdin : list string) : trace * outcome :=
  let '(t, o) := loop new_session stdin in
  (banner ++ Call start_chat :: t, o).

(** The script run as a program, with the environment, the .env file and
    the lines of the standard input. *)
Definition main (environ dotenv : gmap string string) (stdin : list string)
  : trace * outcome :=
  let environ := load_dotenv environ dotenv in
  if not_ (API_KEY environ) then ([], Uncaught missing_key)
  else
    let '(t, o) := chat stdin in
    (Call (configure (API_KEY environ))
       :: Call (GenerativeModel "gemini-2.5-flash" CRYPTO_SYSTEM_INSTRUCTION)
       :: t, o).

(** The loop as a machine of two states. *)
Inductive state : Type :=
| Running
| Terminated.

Definition state_after (c : control) : state :=
  match c with
  | Continue _ => Running
  | Break => Terminated
  end.

(** The state of the loop and its session after the lines of [stdin], each
    read in state [Running]; in state [Terminated] nothing is read. *)
Fixpoint run (chat_session : session) (stdin : list string) : state * session :=
  match stdin with
  | [] => (Running, chat_session)
  | line :: rest =>
      match snd (turn chat_session line) with
      | Break => (Terminated, chat_session)
      | Continue chat_session' => run chat_session' rest
      end
  end.

End Chat.

End Chatbot.

(** ** list_models.py *)

Module ListModels.

Definition header : string := "Available models:".
Definition delimiter : string := Str.mul "-" 50.

(** The test of the loop's [if]. *)
Definition generates (model : Model) : bool :=
  bool_decide ("generateContent" ∈ supported_generation_methods model).

(** The four lines printed for a model that passes the test. *)
Definition block (model : Model) : list string :=
  [ "Name: " +:+ name model;
    "Display: " +:+ display_name model;
    "Methods: " +:+ Repr.list_str (supported_generation_methods model);
    delimiter ].

(** The [for] loop over the iterator [genai.list_models()] returned.  An
    exception of the iterator ends the loop and the script: there is no
    handler. *)
Fixpoint for_model (models : iterator Model) : trace * outcome :=
  match models with
  | StopIteration => ([], Exit0)
  | Fails e => ([], Uncaught e)
  | Yields model rest =>
      let '(t, o) := for_model rest in
      if generates model then (map Printed (block model) ++ t, o) else (t, o)
  end.

(** The script run as a program, with the environment, the .env file and
    what the catalog's iterator does in this run.  [genai.configure] only
    records the key it is given, [None] included, and returns. *)
Definition main (environ dotenv : gmap string string) (catalog : iterator Model)
  : trace * outcome :=
  let environ := load_dotenv environ dotenv in
  let '(t, o) := for_model catalog in
  (Call (configure (getenv environ "GEMINI_API_KEY"))
     :: Printed header :: Printed delimiter :: Call list_models :: t, o).

(** The blocks of a listing, counted by their first line. *)
Definition count_blocks (lines : list string) : nat :=
  length (List.filter (String.prefix "Name: ") lines).

End ListModels.

(** ** What a run of the chat loop reads and sends *)

Module Transcript.

(** The texts a run of the loop hands to [send_message]: the stripped
    lines before the first exit keyword, the blank ones left out. *)
Fixpoint messages (stdin : list string) : list string :=
  match stdin with
  | [] => []
  | line :: rest =>
      if bool_decide (Str.lower (Str.strip line) ∈ Chatbot.exit_keywords) then []
      else if Str.falsy (Str.strip line) then messages rest
      else Str.strip line :: messages rest
  end.

(** What the [input] calls of a trace returned, in order; [None] is the
    end of the input. *)
Fixpoint reads (t : trace) : list (option string) :=
  match t with
  | [] => []
  | Input _ line :: t' => line :: reads t'
  | _ :: t' => reads t'
  end.

(** The lines of an input that are not blank. *)
Definition without_blanks (stdin : list string) : list string :=
  List.filter (fun line => negb (Str.blank line)) stdin.

End Transcript.

(** ** What a run of the chat loop is expected to print *)

Module Dialogue.

(** The line expected for what [send_message] answered: a line feed and
    "Bot: " with the reply's text, or a line feed and "Error: " with the
    text of the exception the call, or the reading of the text, raised. *)
Definition shown (sent : result response) : string :=
  match sent with
  | Returns r =>
      match text r with
      | Returns reply => String "010" ("Bot: " +:+ reply)
      | Raises e => String "010" ("Error: " +:+ exn_str e)
      end
  | Raises e => String "010" ("Error: " +:+ exn_str e)
  end.

(** The lines expected when [contents] are sent in order, each to the
    session the call before left. *)
Fixpoint replies {service : ChatService} (chat_session : session)
  (contents : list string) : list string :=
  match contents with
  | [] => []
  | content :: rest =>
      shown (fst (answer chat_session content))
        :: replies (snd (answer chat_session content)) rest
  end.

End Dialogue.

(** ** Method names that [repr] shows as they are *)

Module Plain.

(** A printable ASCII character other than the single quote and the
    backslash. *)
Definition plain_char (c : ascii) : bool :=
  let n := nat_of_ascii c in
  (32 <=? n) && (n <=? 126) && negb (n =? 39) && negb (n =? 92).

Fixpoint plain (s : string) : bool :=
  match s with
  | EmptyString => true
  | String c s' => plain_char c && plain s'
  end.

End Plain.

(** ** A service that answers from a script

    Used to run the model on concrete inputs: the session holds the answers
    still to come; when they run out, the call fails. *)

Definition out_of_script : exn := Exn "RuntimeError" "no answer left".

Definition scripted_answer (s : list (result response)) (content : string)
  : result response * list (result response) :=
  match s with
  | [] => (Raises out_of_script, [])
  | r :: s' => (r, s')
  end.

Definition Scripted (answers : list (result response)) : ChatService :=
  {| session := list (result response);
     new_session := answers;
     answer := scripted_answer |}.

(** ** Inputs the model is run on *)

Module Demo.

(** An answer whose text is [s]. *)
Definition ok (s : string) : result response := Returns (Response (Returns s)).

Definition network_down : exn := Exn "ConnectionError" "network is unreachable".

(** A service that answers once and then loses the network. *)
Definition flaky : ChatService := Scripted [ok "hi"; Raises network_down; ok "back"].

Definition with_key : gmap string string := {[ "GEMINI_API_KEY" := "secret" ]}.
Definition with_empty_key : gmap string string := {[ "GEMINI_API_KEY" := EmptyString ]}.
Definition without_key : gmap string string := {[ "HOME" := "/root" ]}.

Definition flash : Model :=
  {| name := "models/gemini-2.5-flash";
     display_name := "Gemini 2.5 Flash";
     supported_generation_methods := ["generateContent"; "countTokens"] |}.

Definition pro : Model :=
  {| name := "models/gemini-2.5-pro";
     display_name := "Gemini 2.5 Pro";
     supported_generation_methods := ["generateContent"] |}.

Definition vision : Model :=
  {| name := "models/gemini-pro-vision";
     display_name := "Gemini Pro Vision";
     supported_generation_methods := ["countTokens"; "generateContent"] |}.

Definition embedding : Model :=
  {| name := "models/embedding-001";
     display_name := "Embedding 001";
     supported_generation_methods := ["embedContent"] |}.

End Demo.

(** ** Facts about the text functions *)

Module StrFacts.
Import Str.

Lemma lstrip_blank (s : string) : blank s = true -> lstrip s = EmptyString.
Proof.
  induction s as [|c s IH]; simpl; [reflexivity|].
  destruct (isspace c); simpl; [exact IH | discriminate].
Qed.

Lemma blank_lstrip (s : string) : blank (lstrip s) = true -> blank s = true.
Proof.
  induction s as [|c s IH]; simpl; [reflexivity|].
  destruct (isspace c) eqn:E; simpl; [exact IH | rewrite E; discriminate].
Qed.

Lemma rstrip_empty (s : string) : rstrip s = EmptyString -> blank s = true.
Proof.
  induction s as [|c s IH]; simpl; [reflexivity|].
  destruct (rstrip s) eqn:E; [|discriminate].
  destruct (isspace c); [intros _; simpl; apply IH; reflexivity | discriminate].
Qed.

(** A line strips to the empty string exactly when it is blank. *)
Lemma strip_empty (s : string) : strip s = EmptyString <-> blank s = true.
Proof.
  unfold strip. split.
  - intros H. apply blank_lstrip, rstrip_empty, H.
  - intros H. rewrite (lstrip_blank s H). reflexivity.
Qed.

Lemma falsy_empty (s : string) : falsy s = true <-> s = EmptyString.
Proof. destruct s; simpl; split; congruence. Qed.

Lemma append_empty (s : string) : s +:+ EmptyString = s.
Proof.
  induction s as [|c s IH]; [reflexivity|].
  change (String c (s +:+ EmptyString) = String c s). rewrite IH. reflexivity.
Qed.

Lemma append_assoc (a b c : string) : (a +:+ b) +:+ c = a +:+ b +:+ c.
Proof.
  induction a as [|x a IH]; [reflexivity|].
  change (String x ((a +:+ b) +:+ c) = String x (a +:+ b +:+ c)). rewrite IH. reflexivity.
Qed.

Lemma contains_suffix (pre t : string) : contains (pre +:+ t) t.
Proof. exists pre, EmptyString. rewrite append_empty. reflexivity. Qed.

End StrFacts.

(** ** The chat loop *)

Module ChatbotFacts.
Import Chatbot.

(** Closes a goal that is a decidable fact about concrete values. *)
Ltac by_evaluation := apply (bool_decide_unpack _); vm_compute; exact I.

Lemma bot_line_not_error_line (reply : string) (e : exn) : bot_line reply <> error_line e.
Proof. cbv [bot_line error_line LF String.append]. discriminate. Qed.

Section Loop.
Context {service : ChatService}.
Implicit Types (chat_session : session) (line : string) (stdin rest : list string).

Lemma turn_exit chat_session line :
  Str.lower (Str.strip line) ∈ exit_keywords ->
  turn chat_session line = ([Printed "Goodbye!"], Break).
Proof. intros H. unfold turn. rewrite (bool_decide_eq_true_2 _ H). reflexivity. Qed.

Lemma empty_not_exit : Str.lower EmptyString ∉ exit_keywords.
Proof. by_evaluation. Qed.

Lemma turn_blank chat_session line :
  Str.blank line = true -> turn chat_session line = ([], Continue chat_session).
Proof.
  intros H. apply StrFacts.strip_empty in H. unfold turn. rewrite H.
  rewrite (bool_decide_eq_false_2 _ empty_not_exit). reflexivity.
Qed.

(** What is printed after [send_message] has answered [sent]. *)
Lemma turn_send chat_session line :
  Str.strip line <> EmptyString ->
  Str.lower (Str.strip line) ∉ exit_keywords ->
  turn chat_session line =
    ([Call (send_message (Str.strip line));
      Printed match fst (answer chat_session (Str.strip line)) with
              | Returns r =>
                  match text r with
                  | Returns reply => bot_line reply
                  | Raises e => error_line e
                  end
              | Raises e => error_line e
              end],
     Continue (snd (answer chat_session (Str.strip line)))).
Proof.
  intros Hne Hnx. unfold turn. rewrite (bool_decide_eq_false_2 _ Hnx).
  destruct (Str.falsy (Str.strip line)) eqn:F.
  { apply StrFacts.falsy_empty in F. contradiction. }
  destruct (answer chat_session (Str.strip line)) as [[r|e] s']; simpl; [|reflexivity].
  destruct (text r); reflexivity.
Qed.

Lemma turn_break_iff chat_session line :
  snd (turn chat_session line) = Break <-> Str.lower (Str.strip line) ∈ exit_keywords.
Proof.
  split.
  - intros H. destruct (decide (Str.lower (Str.strip line) ∈ exit_keywords)) as [|Hn]; [assumption|].
    exfalso. revert H. unfold turn. rewrite (bool_decide_eq_false_2 _ Hn).
    destruct (Str.falsy (Str.strip line)); [discriminate|].
    destruct (answer chat_session (Str.strip line)); discriminate.
  - intros H. rewrite (turn_exit _ _ H). reflexivity.
Qed.

Lemma loop_continue chat_session chat_session' line rest t :
  turn chat_session line = (t, Continue chat_session') ->
  loop chat_session (line :: rest) =
    (Input prompt (Some line) :: t ++ fst (loop chat_session' rest),
     snd (loop chat_session' rest)).
Proof.
  intros H. simpl. rewrite H. destruct (loop chat_session' rest). reflexivity.
Qed.

Lemma loop_break chat_session line rest t :
  turn chat_session line = (t, Break) ->
  loop chat_session (line :: rest) = (Input prompt (Some line) :: t, Exit0).
Proof. intros H. simpl. rewrite H. reflexivity. Qed.

(** Every pass starts by prompting and reading. *)
Lemma loop_prompts_first chat_session stdin :
  exists t, fst (loop chat_session stdin) = Input prompt (head stdin) :: t.
Proof.
  destruct stdin as [|line rest]; simpl; [eexists; reflexivity|].
  destruct (turn chat_session line) as [t [s'|]]; [|eexists; reflexivity].
  destruct (loop s' rest). eexists; reflexivity.
Qed.

Lemma turn_calls chat_session line (c : call) :
  c ∈ calls (fst (turn chat_session line)) -> exists content, c = send_message content.
Proof.
  unfold turn. case_bool_decide; simpl; [intros Hin; inversion Hin|].
  destruct (Str.falsy (Str.strip line)); simpl; [intros Hin; inversion Hin|].
  destruct (answer chat_session (Str.strip line)); simpl.
  intros Hin. apply list_elem_of_singleton in Hin. eauto.
Qed.

Lemma calls_app (t t' : trace) : calls (t ++ t') = calls t ++ calls t'.
Proof.
  induction t as [|ev t IH]; simpl; [reflexivity|].
  destruct ev; simpl; rewrite IH; reflexivity.
Qed.

(** The loop calls nothing but [send_message]: it never opens a session. *)
Lemma loop_calls chat_session stdin (c : call) :
  c ∈ calls (fst (loop chat_session stdin)) -> exists content, c = send_message content.
Proof.
  revert chat_session. induction stdin as [|line rest IH]; intros chat_session; simpl.
  { intros H; inversion H. }
  pose proof (turn_calls chat_session line c) as Ht.
  destruct (turn chat_session line) as [t [s'|]]; simpl in *; [|exact Ht].
  specialize (IH s'). destruct (loop s' rest) as [t' o]; simpl in *.
  rewrite calls_app, elem_of_app. intros [H|H]; auto.
Qed.

Lemma loop_outcome chat_session stdin :
  snd (loop chat_session stdin) =
    match fst (run chat_session stdin) with
    | Terminated => Exit0
    | Running => Uncaught EOFError
    end.
Proof.
  revert chat_session. induction stdin as [|line rest IH]; intros chat_session; simpl;
    [reflexivity|].
  destruct (turn chat_session line) as [t [s'|]]; simpl; [|reflexivity].
  specialize (IH s'). destruct (loop s' rest). exact IH.
Qed.

Lemma run_terminated_iff chat_session stdin :
  fst (run chat_session stdin) = Terminated <->
  Exists (fun line => Str.lower (Str.strip line) ∈ exit_keywords) stdin.
Proof.
  revert chat_session. induction stdin as [|line rest IH]; intros chat_session; simpl.
  { split; [discriminate | intros H; inversion H]. }
  rewrite Exists_cons, <- (turn_break_iff chat_session line).
  destruct (snd (turn chat_session line)) as [s'|].
  - rewrite IH. split; [auto | intros [?|?]; [discriminate | assumption]].
  - split; auto.
Qed.

End Loop.

End ChatbotFacts.

(** ** Properties of chatbot.py *)

Module ChatbotSpec.
Import Chatbot ChatbotFacts.

Section Claims.
Context {service : ChatService}.
Implicit Types (chat_session : session) (line : string) (stdin rest : list string).

(** Without the key the script raises its [ValueError] before it calls the
    library at all. *)
Lemma missing_key_stops_chatbot (environ dotenv : gmap string string) stdin :
  API_KEY (load_dotenv environ dotenv) = None ->
  main environ dotenv stdin = ([], Uncaught missing_key).
Proof. intros H. unfold main. rewrite H. reflexivity. Qed.

Lemma reply_line_shape (reply : string) :
  bot_line reply = String "010" ("Bot: " +:+ reply)
  /\ Str.contains (String "010" ("Bot: " +:+ reply)) reply
  /\ String.prefix (String "010" "Bot: ") (String "010" ("Bot: " +:+ reply)) = true
  /\ String.prefix (String "010" "Error: ") (String "010" ("Bot: " +:+ reply)) = false.
Proof.
  split; [reflexivity|]. split; [|split].
  - change (Str.contains (String "010" "Bot: " +:+ reply) reply).
    apply StrFacts.contains_suffix.
  - cbv [String.append]. simpl. destruct reply; reflexivity.
  - reflexivity.
Qed.

Lemma error_line_shape (e : exn) :
  error_line e = String "010" ("Error: " +:+ exn_str e)
  /\ Str.contains (String "010" ("Error: " +:+ exn_str e)) (exn_str e)
  /\ String.prefix (String "010" "Error: ") (String "010" ("Error: " +:+ exn_str e)) = true
  /\ String.prefix (String "010" "Bot: ") (String "010" ("Error: " +:+ exn_str e)) = false.
Proof.
  split; [reflexivity|]. split; [|split].
  - change (Str.contains (String "010" "Error: " +:+ exn_str e) (exn_str e)).
    apply StrFacts.contains_suffix.
  - cbv [String.append]. simpl. destruct (exn_str e); reflexivity.
  - reflexivity.
Qed.

(** C2: a line that strips to a non-empty text which is no exit keyword
    makes the loop body call [send_message] exactly once, with the stripped
    text, and print exactly one line.  When the call returned and the
    reply's text could be read, the line is a line feed, "Bot: " and that
    text, and it is no "Error: " line; when the call or the reading of the
    text raised, the line is a line feed, "Error: " and the exception's
    text, and it is no "Bot: " line.  So the one line printed is a reply or
    an error, never both and never neither. *)
Theorem one_call_and_one_line_per_message chat_session line :
  Str.strip line <> EmptyString ->
  Str.lower (Str.strip line) ∉ exit_keywords ->
  exists out : string,
    turn chat_session line =
      ([Call (send_message (Str.strip line)); Printed out],
       Continue (snd (answer chat_session (Str.strip line))))
    /\ remote_calls (fst (turn chat_session line)) = [send_message (Str.strip line)]
    /\ printed (fst (turn chat_session line)) = [out]
    /\ match fst (answer chat_session (Str.strip line)) with
       | Returns r =>
           match text r with
           | Returns reply =>
               out = String "010" ("Bot: " +:+ reply)
               /\ Str.contains out reply
               /\ String.prefix (String "010" "Error: ") out = false
           | Raises e =>
               out = String "010" ("Error: " +:+ exn_str e)
               /\ Str.contains out (exn_str e)
               /\ String.prefix (String "010" "Bot: ") out = false
           end
       | Raises e =>
           out = String "010" ("Error: " +:+ exn_str e)
           /\ Str.contains out (exn_str e)
           /\ String.prefix (String "010" "Bot: ") out = false
       end
    /\ xorb (String.prefix (String "010" "Bot: ") out)
            (String.prefix (String "010" "Error: ") out) = true.
Proof.
  intros Hne Hnx. rewrite (turn_send _ _ Hne Hnx).
  eexists. split; [reflexivity|]. split; [reflexivity|]. split; [reflexivity|].
  destruct (fst (answer chat_session (Str.strip line))) as [r|e].
  - destruct (text r) as [reply|e].
    + destruct (reply_line_shape reply) as (E & Hc & Hb & He). rewrite E.
      rewrite Hb, He. auto.
    + destruct (error_line_shape e) as (E & Hc & He & Hb). rewrite E.
      rewrite Hb, He. auto.
  - destruct (error_line_shape e) as (E & Hc & He & Hb). rewrite E.
    rewrite Hb, He. auto.
Qed.

(** C3: a line that, stripped and lowercased, is one of the exit keywords
    makes the loop body print the farewell and leave the loop; the loop
    ends there, whatever input follows, and nothing of the library is
    called. *)
Theorem exit_keyword_says_goodbye_and_stops chat_session line rest :
  Str.lower (Str.strip line) ∈ exit_keywords ->
  turn chat_session line = ([Printed "Goodbye!"], Break)
  /\ loop chat_session (line :: rest) =
       ([Input prompt (Some line); Printed "Goodbye!"], Exit0)
  /\ calls (fst (loop chat_session (line :: rest))) = [].
Proof.
  intros H. pose proof (turn_exit chat_session line H) as Ht.
  rewrite (loop_break _ _ rest _ Ht). auto.
Qed.

(** C4: when [send_message] raises, the loop body prints "Error: " and the
    exception's text, and the loop goes on to the next line with the session
    object as the failed call left it; the loop never opens another
    session. *)
Theorem remote_failure_is_reported_and_loop_goes_on
  chat_session line (e : exn) (chat_session' : session) rest :
  Str.strip line <> EmptyString ->
  Str.lower (Str.strip line) ∉ exit_keywords ->
  answer chat_session (Str.strip line) = (Raises e, chat_session') ->
  turn chat_session line =
    ([Call (send_message (Str.strip line)); Printed (error_line e)],
     Continue chat_session')
  /\ Str.contains (error_line e) (exn_str e)
  /\ loop chat_session (line :: rest) =
       (Input prompt (Some line) :: Call (send_message (Str.strip line))
          :: Printed (error_line e) :: fst (loop chat_session' rest),
        snd (loop chat_session' rest))
  /\ start_chat ∉ calls (fst (loop chat_session (line :: rest))).
Proof.
  intros Hne Hnx Ha.
  assert (Ht : turn chat_session line =
                 ([Call (send_message (Str.strip line)); Printed (error_line e)],
                  Continue chat_session')).
  { rewrite (turn_send _ _ Hne Hnx), Ha. reflexivity. }
  split; [exact Ht|]. split.
  { unfold error_line. rewrite <- (StrFacts.append_assoc LF). apply StrFacts.contains_suffix. }
  split.
  - rewrite (loop_continue _ _ _ rest _ Ht). reflexivity.
  - intros Hin. apply loop_calls in Hin as [content Hc]. discriminate.
Qed.

(** C6: a line that is empty or all whitespace makes the loop body do
    nothing: no call, nothing printed; the loop goes on with the session
    untouched, and its next step is to prompt again. *)
Theorem blank_line_reprompts chat_session line rest :
  Str.blank line = true ->
  turn chat_session line = ([], Continue chat_session)
  /\ loop chat_session (line :: rest) =
       (Input prompt (Some line) :: fst (loop chat_session rest),
        snd (loop chat_session rest))
  /\ exists t, fst (loop chat_session rest) = Input prompt (head rest) :: t.
Proof.
  intros H. pose proof (turn_blank chat_session line H) as Ht.
  split; [exact Ht|]. split.
  - rewrite (loop_continue _ _ _ rest _ Ht). reflexivity.
  - apply loop_prompts_first.
Qed.

(** C7: read as a machine with the states Running and Terminated, the loop
    moves from Running to Terminated exactly on an exit keyword; every
    other line (blank, answered or failed) leaves it Running.  Over a whole
    input, the loop is Terminated exactly when some line was an exit
    keyword, and that is when the process exits normally. *)
Theorem loop_terminates_only_on_exit_keyword chat_session line stdin :
  (state_after (snd (turn chat_session line)) = Terminated <->
     Str.lower (Str.strip line) ∈ exit_keywords)
  /\ (state_after (snd (turn chat_session line)) = Running <->
     Str.lower (Str.strip line) ∉ exit_keywords)
  /\ (fst (run chat_session stdin) = Terminated <->
     Exists (fun l => Str.lower (Str.strip l) ∈ exit_keywords) stdin)
  /\ (snd (loop chat_session stdin) = Exit0 <->
     fst (run chat_session stdin) = Terminated).
Proof.
  pose proof (turn_break_iff chat_session line) as Hb.
  split; [|split; [|split]].
  - rewrite <- Hb. destruct (snd (turn chat_session line)); simpl; split; congruence.
  - rewrite <- Hb. destruct (snd (turn chat_session line)); simpl; split; congruence.
  - apply run_terminated_iff.
  - rewrite loop_outcome. destruct (fst (run chat_session stdin)); split; congruence.
Qed.

(** C9: a key that is set to the empty string stops the script exactly as
    an absent key does: the same [ValueError], before any call to the
    library. *)
Theorem empty_key_is_a_missing_key
  (environ dotenv environ' dotenv' : gmap string string) stdin :
  API_KEY (load_dotenv environ dotenv) = Some EmptyString ->
  API_KEY (load_dotenv environ' dotenv') = None ->
  main environ dotenv stdin = ([], Uncaught missing_key)
  /\ main environ dotenv stdin = main environ' dotenv' stdin.
Proof.
  intros He Hn. rewrite (missing_key_stops_chatbot _ _ _ Hn).
  unfold main. rewrite He. auto.
Qed.

End Claims.

End ChatbotSpec.

(** ** The catalog loop *)

Module ListModelsFacts.
Import ListModels.

Lemma printed_lines (lines : list string) (t : trace) :
  printed (map Printed lines ++ t) = lines ++ printed t.
Proof. induction lines as [|l lines IH]; simpl; [reflexivity | rewrite IH; reflexivity]. Qed.

Lemma calls_lines (lines : list string) (t : trace) :
  calls (map Printed lines ++ t) = calls t.
Proof. induction lines as [|l lines IH]; simpl; [reflexivity | exact IH]. Qed.

Lemma yielded_iter {A : Type} (l : list A) : yielded (iter l) = l.
Proof. induction l as [|a l IH]; simpl; [reflexivity | rewrite IH; reflexivity]. Qed.

Lemma failure_iter {A : Type} (l : list A) : failure (iter l) = None.
Proof. induction l as [|a l IH]; simpl; [reflexivity | exact IH]. Qed.

(** The loop prints, for each model the iterator yields, its block or
    nothing. *)
Lemma for_model_printed (models : iterator Model) :
  printed (fst (for_model models)) =
    concat (map (fun model => if generates model then block model else []) (yielded models)).
Proof.
  induction models as [|model rest IH|e]; simpl; [reflexivity| |reflexivity].
  destruct (for_model rest) as [t o]. simpl in IH.
  destruct (generates model); simpl; rewrite IH; reflexivity.
Qed.

(** The loop ends as the iterator does. *)
Lemma for_model_outcome (models : iterator Model) :
  snd (for_model models) =
    match failure models with
    | Some e => Uncaught e
    | None => Exit0
    end.
Proof.
  induction models as [|model rest IH|e]; simpl; [reflexivity| |reflexivity].
  destruct (for_model rest) as [t o]. simpl in IH.
  destruct (generates model); exact IH.
Qed.

Lemma for_model_calls (models : iterator Model) : calls (fst (for_model models)) = [].
Proof.
  induction models as [|model rest IH|e]; simpl; [reflexivity| |reflexivity].
  destruct (for_model rest) as [t o]. simpl in IH.
  destruct (generates model); simpl; exact IH.
Qed.

Lemma main_trace (environ dotenv : gmap string string) (catalog : iterator Model) :
  fst (main environ dotenv catalog) =
    Call (configure (getenv (load_dotenv environ dotenv) "GEMINI_API_KEY"))
      :: Printed header :: Printed delimiter :: Call list_models
      :: fst (for_model catalog).
Proof. unfold main. destruct (for_model catalog). reflexivity. Qed.

Lemma main_outcome (environ dotenv : gmap string string) (catalog : iterator Model) :
  snd (main environ dotenv catalog) = snd (for_model catalog).
Proof. unfold main. destruct (for_model catalog). reflexivity. Qed.

Lemma main_printed (environ dotenv : gmap string string) (catalog : iterator Model) :
  printed (fst (main environ dotenv catalog)) =
    header :: delimiter
      :: concat (map (fun model => if generates model then block model else []) (yielded catalog)).
Proof. rewrite main_trace. simpl. rewrite for_model_printed. reflexivity. Qed.

Lemma count_blocks_block (model : Model) (lines : list string) :
  count_blocks (block model ++ lines) = S (count_blocks lines).
Proof.
  unfold count_blocks, block. cbv [String.append]. simpl.
  destruct (name model); reflexivity.
Qed.

Lemma count_blocks_listing (models : list Model) :
  count_blocks (concat (map (fun model => if generates model then block model else []) models))
  = length (List.filter generates models).
Proof.
  induction models as [|model models IH]; simpl; [reflexivity|].
  destruct (generates model); simpl length.
  - rewrite count_blocks_block, IH. reflexivity.
  - exact IH.
Qed.

Lemma nothing_listed (models : list Model) :
  Forall (fun model => generates model = false) models ->
  concat (map (fun model => if generates model then block model else []) models) = [].
Proof.
  induction 1 as [|model models Hm _ IH]; simpl; [reflexivity|].
  rewrite Hm. exact IH.
Qed.

End ListModelsFacts.

(** ** Properties of list_models.py *)

Module ListModelsSpec.
Import ListModels ListModelsFacts.

(** C1: list_models.py does not test the key.  Run without
    GEMINI_API_KEY, it hands [None] to [genai.configure], prints the header
    and the delimiter and calls [genai.list_models()]: a remote call is
    attempted, and when the service answers (a catalog of one model here)
    the listing is printed and the process exits normally, with no error. *)
Theorem lister_asks_the_service_without_a_key (catalog : iterator Model) :
  getenv (load_dotenv Demo.without_key ∅) "GEMINI_API_KEY" = None
  /\ fst (main Demo.without_key ∅ catalog) =
       Call (configure None) :: Printed header :: Printed delimiter
         :: Call list_models :: fst (for_model catalog)
  /\ remote_calls (fst (main Demo.without_key ∅ catalog)) = [list_models]
  /\ main Demo.without_key ∅ (iter [Demo.flash]) =
       (Call (configure None) :: Printed header :: Printed delimiter
          :: Call list_models :: map Printed (block Demo.flash),
        Exit0).
Proof.
  assert (Hk : getenv (load_dotenv Demo.without_key ∅) "GEMINI_API_KEY" = None)
    by (vm_compute; reflexivity).
  split; [exact Hk|]. split; [|split].
  - rewrite main_trace, Hk. reflexivity.
  - rewrite main_trace. unfold remote_calls. simpl. rewrite for_model_calls. reflexivity.
  - vm_compute. reflexivity.
Qed.

Lemma plain_char_kept (c : ascii) :
  Plain.plain_char c = true ->
  Repr.char Repr.squote c = String c EmptyString /\ Ascii.eqb Repr.squote c = false.
Proof.
  destruct c as [[] [] [] [] [] [] [] []]; intros H; vm_compute in H;
    try discriminate H; split; reflexivity.
Qed.

Lemma plain_kept (s : string) :
  Plain.plain s = true -> Repr.chars Repr.squote s = s /\ Repr.has Repr.squote s = false.
Proof.
  induction s as [|c s IH]; [split; reflexivity|].
  intros H. change (Plain.plain_char c && Plain.plain s = true) in H.
  apply andb_prop in H as [Hc Hs].
  destruct (plain_char_kept c Hc) as [Hk Hq], (IH Hs) as [IHc IHh].
  change (Repr.chars Repr.squote (String c s))
    with (Repr.char Repr.squote c +:+ Repr.chars Repr.squote s).
  change (Repr.has Repr.squote (String c s))
    with (Ascii.eqb Repr.squote c || Repr.has Repr.squote s).
  rewrite Hk, Hq, IHc, IHh. split; reflexivity.
Qed.

Lemma str_plain (s : string) :
  Plain.plain s = true -> Repr.str s = "'" +:+ s +:+ "'".
Proof.
  intros H. destruct (plain_kept s H) as [Hc Hh].
  unfold Repr.str, Repr.quote_of. rewrite Hh. simpl. rewrite Hc. reflexivity.
Qed.

Lemma join_concat (sep : string) (l : list string) : Repr.join sep l = String.concat sep l.
Proof.
  induction l as [|x l IH]; [reflexivity|].
  destruct l as [|y l]; [reflexivity|].
  change (x +:+ sep +:+ Repr.join sep (y :: l) = x +:+ sep +:+ String.concat sep (y :: l)).
  rewrite IH. reflexivity.
Qed.

Lemma list_str_plain (methods : list string) :
  Forall (fun method => Plain.plain method = true) methods ->
  Repr.list_str methods
  = "[" +:+ String.concat ", " (map (fun method => "'" +:+ method +:+ "'") methods) +:+ "]".
Proof.
  intros H.
  assert (Hmap : map Repr.str methods
                 = map (fun method => "'" +:+ method +:+ "'") methods).
  { induction H as [|method methods Hm _ IH]; simpl; [reflexivity|].
    rewrite (str_plain _ Hm), IH. reflexivity. }
  unfold Repr.list_str. rewrite join_concat, Hmap. reflexivity.
Qed.

(** C5: for a catalog that is enumerated to its end, the script prints,
    after the line "Available models:" and a line of fifty dashes, for each
    model whose list of methods has "generateContent" among its members
    one block of four lines: "Name: " and the name, "Display: " and the
    display name, "Methods: " and the whole list of methods as Python
    shows a list of strings, and a line of fifty dashes; for a model
    without that member it prints nothing.  The blocks stand in the
    catalog's order, their number is the number of such models, and the
    process exits normally.  A list of method names made of printable ASCII
    without quote or backslash is shown as the names in single quotes,
    separated by a comma and a space, between square brackets. *)
Theorem one_block_per_generating_model
  (environ dotenv : gmap string string) (catalog : list Model) :
  printed (fst (main environ dotenv (iter catalog))) =
    "Available models:"
      :: "--------------------------------------------------"
      :: concat (map (fun model =>
                        if bool_decide ("generateContent" ∈ supported_generation_methods model)
                        then [ "Name: " +:+ name model;
                               "Display: " +:+ display_name model;
                               "Methods: " +:+ Repr.list_str (supported_generation_methods model);
                               "--------------------------------------------------" ]
                        else [])
                   catalog)
  /\ length (List.filter (String.prefix "Name: ")
               (printed (fst (main environ dotenv (iter catalog)))))
     = length (List.filter
                 (fun model => bool_decide ("generateContent" ∈ supported_generation_methods model))
                 catalog)
  /\ snd (main environ dotenv (iter catalog)) = Exit0
  /\ (forall methods : list string,
        Forall (fun method => Plain.plain method = true) methods ->
        Repr.list_str methods
        = "[" +:+ String.concat ", " (map (fun method => "'" +:+ method +:+ "'") methods)
            +:+ "]").
Proof.
  rewrite main_printed, yielded_iter. split; [reflexivity|]. split; [|split].
  - exact (count_blocks_listing catalog).
  - rewrite main_outcome, for_model_outcome, failure_iter. reflexivity.
  - exact list_str_plain.
Qed.

(** The example of C5: of three models two generate content, and two
    blocks are printed. *)
Example two_blocks_of_three :
  count_blocks (printed (fst (main Demo.with_key ∅
                                (iter [Demo.flash; Demo.embedding; Demo.pro])))) = 2.
Proof. vm_compute. reflexivity. Qed.

(** C8: when the catalog's iterator raises, at the first item or after
    some, no handler catches the exception: the process ends with it.
    What was printed before stays and nothing is printed after. *)
Theorem catalog_failure_ends_the_lister
  (environ dotenv : gmap string string) (catalog : iterator Model) (e : exn) :
  failure catalog = Some e ->
  snd (main environ dotenv catalog) = Uncaught e
  /\ printed (fst (main environ dotenv catalog)) =
       header :: delimiter
         :: concat (map (fun model => if generates model then block model else [])
                      (yielded catalog)).
Proof.
  intros H. split; [|apply main_printed].
  rewrite main_outcome, for_model_outcome, H. reflexivity.
Qed.

(** C10: whatever the environment and the catalog, the script prints the
    header and one delimiter before it asks for the catalog, so its output
    is never empty; when no model the iterator yields generates content,
    the header and the delimiter are all it prints. *)
Theorem header_is_printed_first
  (environ dotenv : gmap string string) (catalog : iterator Model) :
  fst (main environ dotenv catalog) =
    Call (configure (getenv (load_dotenv environ dotenv) "GEMINI_API_KEY"))
      :: Printed header :: Printed delimiter :: Call list_models
      :: fst (for_model catalog)
  /\ (exists lines, printed (fst (main environ dotenv catalog)) = header :: delimiter :: lines)
  /\ (Forall (fun model => generates model = false) (yielded catalog) ->
      printed (fst (main environ dotenv catalog)) = [header; delimiter]).
Proof.
  split; [apply main_trace|]. rewrite main_printed. split; [eauto|].
  intros H. rewrite (nothing_listed _ H). reflexivity.
Qed.

End ListModelsSpec.

(** ** The properties at concrete inputs *)

Module Witness.
Import Chatbot ChatbotFacts.

(** C2 on the line "  hello ", answered "hi": the call is
    [send_message("hello")] and the line printed is a line feed and
    "Bot: hi". *)
Lemma one_call_and_one_line_per_message_witness :
  Str.strip "  hello " <> EmptyString
  /\ (Str.lower (Str.strip "  hello ") ∉ exit_keywords)
  /\ @turn Demo.flaky (@new_session Demo.flaky) "  hello " =
       ([Call (send_message "hello"); Printed (String "010" "Bot: hi")],
        @Continue Demo.flaky [Raises Demo.network_down; Demo.ok "back"]).
Proof.
  assert (H1 : Str.strip "  hello " <> EmptyString) by (vm_compute; discriminate).
  assert (H2 : Str.lower (Str.strip "  hello ") ∉ exit_keywords) by by_evaluation.
  split; [exact H1|]. split; [exact H2|].
  destruct (@ChatbotSpec.one_call_and_one_line_per_message Demo.flaky
              (@new_session Demo.flaky) "  hello " H1 H2)
    as (out & Ht & _ & _ & Hout & _).
  rewrite Ht. simpl in Hout. destruct Hout as [Hout _]. rewrite Hout. reflexivity.
Defined.

(** C3 on the line "  QUIT ", with more input behind it. *)
Lemma exit_keyword_says_goodbye_and_stops_witness :
  (Str.lower (Str.strip "  QUIT ") ∈ exit_keywords)
  /\ @loop Demo.flaky (@new_session Demo.flaky) ["  QUIT "; "hello"] =
       ([Input prompt (Some "  QUIT "); Printed "Goodbye!"], Exit0).
Proof.
  assert (H : Str.lower (Str.strip "  QUIT ") ∈ exit_keywords) by by_evaluation.
  split; [exact H|].
  exact (proj1 (proj2 (@ChatbotSpec.exit_keyword_says_goodbye_and_stops Demo.flaky
                         (@new_session Demo.flaky) "  QUIT " ["hello"] H))).
Defined.

(** C4 on the second call of the flaky service, which fails. *)
Lemma remote_failure_is_reported_and_loop_goes_on_witness :
  Str.strip " ping" <> EmptyString
  /\ (Str.lower (Str.strip " ping") ∉ exit_keywords)
  /\ @answer Demo.flaky [Raises Demo.network_down; Demo.ok "back"] (Str.strip " ping")
     = (Raises Demo.network_down, [Demo.ok "back"])
  /\ @turn Demo.flaky [Raises Demo.network_down; Demo.ok "back"] " ping" =
       ([Call (send_message "ping"); Printed (LF +:+ "Error: network is unreachable")],
        @Continue Demo.flaky [Demo.ok "back"]).
Proof.
  assert (H1 : Str.strip " ping" <> EmptyString) by (vm_compute; discriminate).
  assert (H2 : Str.lower (Str.strip " ping") ∉ exit_keywords) by by_evaluation.
  assert (H3 : @answer Demo.flaky [Raises Demo.network_down; Demo.ok "back"] (Str.strip " ping")
               = (Raises Demo.network_down, [Demo.ok "back"])) by reflexivity.
  split; [exact H1|]. split; [exact H2|]. split; [exact H3|].
  exact (proj1 (@ChatbotSpec.remote_failure_is_reported_and_loop_goes_on Demo.flaky
                  [Raises Demo.network_down; Demo.ok "back"] " ping"
                  Demo.network_down [Demo.ok "back"] ["quit"] H1 H2 H3)).
Defined.

(** C6 on a line of two spaces and a tab. *)
Lemma blank_line_reprompts_witness :
  Str.blank (String " " (String " " (String "009" EmptyString))) = true
  /\ @turn Demo.flaky (@new_session Demo.flaky)
       (String " " (String " " (String "009" EmptyString)))
     = ([], @Continue Demo.flaky (@new_session Demo.flaky)).
Proof.
  assert (H : Str.blank (String " " (String " " (String "009" EmptyString))) = true)
    by reflexivity.
  split; [exact H|].
  exact (proj1 (@ChatbotSpec.blank_line_reprompts Demo.flaky (@new_session Demo.flaky)
                  (String " " (String " " (String "009" EmptyString))) ["bye"] H)).
Defined.

(** C9 on an environment whose key is the empty string and one without
    the key. *)
Lemma empty_key_is_a_missing_key_witness :
  API_KEY (load_dotenv Demo.with_empty_key ∅) = Some EmptyString
  /\ API_KEY (load_dotenv Demo.without_key ∅) = None
  /\ @main Demo.flaky Demo.with_empty_key ∅ ["hello"] = ([], Uncaught missing_key).
Proof.
  assert (H1 : API_KEY (load_dotenv Demo.with_empty_key ∅) = Some EmptyString)
    by (vm_compute; reflexivity).
  assert (H2 : API_KEY (load_dotenv Demo.without_key ∅) = None)
    by (vm_compute; reflexivity).
  split; [exact H1|]. split; [exact H2|].
  exact (proj1 (@ChatbotSpec.empty_key_is_a_missing_key Demo.flaky
                  Demo.with_empty_key ∅ Demo.without_key ∅ ["hello"] H1 H2)).
Defined.

(** C8 on a catalog that yields one model and then fails. *)
Lemma catalog_failure_ends_the_lister_witness :
  failure (Yields Demo.flash (Fails Demo.network_down)) = Some Demo.network_down
  /\ snd (ListModels.main Demo.with_key ∅ (Yields Demo.flash (Fails Demo.network_down)))
     = Uncaught Demo.network_down.
Proof.
  assert (H : failure (Yields Demo.flash (Fails Demo.network_down))
              = Some Demo.network_down) by reflexivity.
  split; [exact H|].
  exact (proj1 (ListModelsSpec.catalog_failure_ends_the_lister Demo.with_key ∅
                  (Yields Demo.flash (Fails Demo.network_down)) Demo.network_down H)).
Defined.

(** C10 on a catalog whose only model does not generate content. *)
Lemma header_is_printed_first_witness :
  Forall (fun model => ListModels.generates model = false) (yielded (iter [Demo.embedding]))
  /\ printed (fst (ListModels.main Demo.with_key ∅ (iter [Demo.embedding])))
     = [ListModels.header; ListModels.delimiter].
Proof.
  assert (H : Forall (fun model => ListModels.generates model = false)
                (yielded (iter [Demo.embedding]))).
  { repeat constructor. }
  split; [exact H|].
  exact (proj2 (proj2 (ListModelsSpec.header_is_printed_first Demo.with_key ∅
                         (iter [Demo.embedding]))) H).
Defined.

(** C5 on a catalog of three models, two of which generate content (one
    of them with "generateContent" last in its list): two blocks. *)
Lemma one_block_per_generating_model_witness :
  Forall (fun method => Plain.plain method = true) ["countTokens"; "generateContent"]
  /\ Repr.list_str ["countTokens"; "generateContent"] = "['countTokens', 'generateContent']"
  /\ printed (fst (ListModels.main Demo.with_key ∅
                     (iter [Demo.vision; Demo.embedding; Demo.pro])))
     = [ "Available models:";
         "--------------------------------------------------";
         "Name: models/gemini-pro-vision";
         "Display: Gemini Pro Vision";
         "Methods: ['countTokens', 'generateContent']";
         "--------------------------------------------------";
         "Name: models/gemini-2.5-pro";
         "Display: Gemini 2.5 Pro";
         "Methods: ['generateContent']";
         "--------------------------------------------------" ].
Proof.
  assert (H : Forall (fun method => Plain.plain method = true)
                ["countTokens"; "generateContent"]).
  { repeat constructor. }
  destruct (ListModelsSpec.one_block_per_generating_model Demo.with_key ∅
              [Demo.vision; Demo.embedding; Demo.pro]) as (Hp & _ & _ & Hr).
  split; [exact H|]. split.
  - rewrite (Hr _ H). reflexivity.
  - rewrite Hp. vm_compute. reflexivity.
Defined.

End Witness.

(** ** More facts about the text functions *)

Module StrMore.
Import Str.

Lemma append_cons (c : ascii) (a b : string) : String c a +:+ b = String c (a +:+ b).
Proof. reflexivity. Qed.

Lemma rstrip_blank (s : string) : blank s = true -> rstrip s = EmptyString.
Proof.
  induction s as [|c s IH]; simpl; [reflexivity|].
  intros H. apply andb_prop in H as [Hc Hs]. rewrite (IH Hs), Hc. reflexivity.
Qed.

Lemma lstrip_pad (pre s : string) : blank pre = true -> lstrip (pre +:+ s) = lstrip s.
Proof.
  induction pre as [|c pre IH]; [reflexivity|].
  intros H. simpl in H. apply andb_prop in H as [Hc Hp].
  rewrite append_cons. simpl. rewrite Hc. exact (IH Hp).
Qed.

Lemma rstrip_pad (s post : string) : blank post = true -> rstrip (s +:+ post) = rstrip s.
Proof.
  intros H. induction s as [|c s IH]; [exact (rstrip_blank post H)|].
  rewrite append_cons. simpl. rewrite IH. reflexivity.
Qed.

Lemma strip_pad_right (s post : string) :
  blank post = true -> strip (s +:+ post) = strip s.
Proof.
  intros H. unfold strip. induction s as [|c s IH].
  - change (EmptyString +:+ post) with post.
    rewrite (StrFacts.lstrip_blank post H). reflexivity.
  - rewrite append_cons. simpl. destruct (isspace c); [exact IH|].
    rewrite <- append_cons. apply rstrip_pad, H.
Qed.

(** Whitespace around a text does not change what [strip] gives. *)
Lemma strip_pad (pre s post : string) :
  blank pre = true -> blank post = true -> strip (pre +:+ s +:+ post) = strip s.
Proof.
  intros Hp Hq. rewrite <- (strip_pad_right s post Hq).
  unfold strip. rewrite (lstrip_pad pre _ Hp). reflexivity.
Qed.

Lemma rstrip_idem (s : string) : rstrip (rstrip s) = rstrip s.
Proof.
  induction s as [|c s IH]; simpl; [reflexivity|].
  destruct (rstrip s) as [|d r] eqn:E.
  - destruct (isspace c) eqn:Hc; simpl; [reflexivity | rewrite Hc; reflexivity].
  - simpl. simpl in IH. rewrite IH. reflexivity.
Qed.

Lemma lstrip_head (s : string) :
  lstrip s = EmptyString \/ exists c s', lstrip s = String c s' /\ isspace c = false.
Proof.
  induction s as [|c s IH]; simpl; [left; reflexivity|].
  destruct (isspace c) eqn:Hc; [exact IH | right; eauto].
Qed.

Lemma rstrip_keeps_head (c : ascii) (s : string) :
  isspace c = false -> exists r, rstrip (String c s) = String c r.
Proof.
  intros Hc. simpl. destruct (rstrip s); rewrite ?Hc; eauto.
Qed.

(** Stripping a stripped text changes nothing. *)
Lemma strip_idem (s : string) : strip (strip s) = strip s.
Proof.
  unfold strip. destruct (lstrip_head s) as [E | (c & s' & E & Hc)]; rewrite E.
  - reflexivity.
  - destruct (rstrip_keeps_head c s' Hc) as [r Hr].
    assert (Hl : lstrip (rstrip (String c s')) = rstrip (String c s')).
    { rewrite Hr. simpl. rewrite Hc. reflexivity. }
    rewrite Hl. apply rstrip_idem.
Qed.

Lemma isspace_lower_char (c : ascii) : isspace (lower_char c) = isspace c.
Proof. destruct c as [[] [] [] [] [] [] [] []]; reflexivity. Qed.

Lemma lower_char_idem (c : ascii) : lower_char (lower_char c) = lower_char c.
Proof. destruct c as [[] [] [] [] [] [] [] []]; reflexivity. Qed.

Lemma lower_idem (s : string) : lower (lower s) = lower s.
Proof.
  induction s as [|c s IH]; simpl; [reflexivity|].
  rewrite lower_char_idem, IH. reflexivity.
Qed.

Lemma lstrip_lower (s : string) : lstrip (lower s) = lower (lstrip s).
Proof.
  induction s as [|c s IH]; simpl; [reflexivity|].
  rewrite isspace_lower_char. destruct (isspace c); [exact IH | reflexivity].
Qed.

Lemma rstrip_lower (s : string) : rstrip (lower s) = lower (rstrip s).
Proof.
  induction s as [|c s IH]; simpl; [reflexivity|].
  rewrite IH, isspace_lower_char.
  destruct (rstrip s); simpl; [destruct (isspace c); reflexivity | reflexivity].
Qed.

(** Lowercasing and stripping commute. *)
Lemma strip_lower (s : string) : strip (lower s) = lower (strip s).
Proof. unfold strip. rewrite lstrip_lower, rstrip_lower. reflexivity. Qed.

End StrMore.

(** ** Whole runs of the chat loop *)

Module ChatbotRun.
Import Chatbot ChatbotFacts Transcript.

Lemma printed_app (t t' : trace) : printed (t ++ t') = printed t ++ printed t'.
Proof.
  induction t as [|ev t IH]; simpl; [reflexivity|].
  destruct ev; simpl; rewrite IH; reflexivity.
Qed.

Lemma reads_app (t t' : trace) : reads (t ++ t') = reads t ++ reads t'.
Proof.
  induction t as [|ev t IH]; simpl; [reflexivity|].
  destruct ev; simpl; rewrite IH; reflexivity.
Qed.

Lemma messages_exit (line : string) (rest : list string) :
  Str.lower (Str.strip line) ∈ exit_keywords -> messages (line :: rest) = [].
Proof. intros H. simpl. rewrite (bool_decide_eq_true_2 _ H). reflexivity. Qed.

Lemma messages_blank (line : string) (rest : list string) :
  Str.strip line = EmptyString -> messages (line :: rest) = messages rest.
Proof.
  intros H. simpl. rewrite H.
  rewrite (bool_decide_eq_false_2 _ empty_not_exit). reflexivity.
Qed.

Lemma messages_send (line : string) (rest : list string) :
  Str.lower (Str.strip line) ∉ exit_keywords -> Str.strip line <> EmptyString ->
  messages (line :: rest) = Str.strip line :: messages rest.
Proof.
  intros Hx Hne. simpl. rewrite (bool_decide_eq_false_2 _ Hx).
  destruct (Str.falsy (Str.strip line)) eqn:F; [|reflexivity].
  apply StrFacts.falsy_empty in F. contradiction.
Qed.

Section Run.
Context {service : ChatService}.
Implicit Types (chat_session : session) (line : string) (stdin rest pre : list string).

(** The three ways through the loop body. *)
Lemma turn_cases chat_session line :
  (Str.lower (Str.strip line) ∈ exit_keywords
   /\ turn chat_session line = ([Printed "Goodbye!"], Break))
  \/ (Str.strip line = EmptyString
      /\ turn chat_session line = ([], Continue chat_session))
  \/ ((Str.lower (Str.strip line) ∉ exit_keywords) /\ Str.strip line <> EmptyString
      /\ exists out,
           ((exists reply, out = bot_line reply) \/ (exists e, out = error_line e))
           /\ turn chat_session line =
                ([Call (send_message (Str.strip line)); Printed out],
                 Continue (snd (answer chat_session (Str.strip line))))).
Proof.
  destruct (decide (Str.lower (Str.strip line) ∈ exit_keywords)) as [Hx|Hx].
  { left. split; [exact Hx | apply turn_exit, Hx]. }
  destruct (decide (Str.strip line = EmptyString)) as [He|Hne].
  { right; left. split; [exact He|]. apply turn_blank, StrFacts.strip_empty, He. }
  right; right. split; [exact Hx|]. split; [exact Hne|].
  rewrite (turn_send _ _ Hne Hx). eexists. split; [|reflexivity].
  destruct (fst (answer chat_session (Str.strip line))) as [r|e]; [|eauto].
  destruct (text r); eauto.
Qed.

Lemma loop_calls_messages chat_session stdin :
  calls (fst (loop chat_session stdin)) = map send_message (messages stdin).
Proof.
  revert chat_session. induction stdin as [|line rest IH]; intros chat_session;
    [reflexivity|].
  destruct (turn_cases chat_session line)
    as [[Hx Ht] | [[He Ht] | (Hx & Hne & out & _ & Ht)]].
  - rewrite (loop_break _ _ rest _ Ht), (messages_exit _ _ Hx). reflexivity.
  - rewrite (loop_continue _ _ _ rest _ Ht), (messages_blank _ _ He). simpl. apply IH.
  - rewrite (loop_continue _ _ _ rest _ Ht), (messages_send _ _ Hx Hne). simpl.
    rewrite IH. reflexivity.
Qed.

(** X1: with a usable key, the library calls of a whole run are: configure
    with the key, the model with its name and instruction, one
    [start_chat], and then one [send_message] per message of the input, in
    order; what the service answers changes none of it (a failed message is
    not sent again, and no message is skipped). *)
Theorem run_calls_the_library_in_order
  (environ dotenv : gmap string string) stdin (key : string) :
  API_KEY (load_dotenv environ dotenv) = Some key ->
  key <> EmptyString ->
  calls (fst (main environ dotenv stdin)) =
    configure (Some key)
      :: GenerativeModel "gemini-2.5-flash" CRYPTO_SYSTEM_INSTRUCTION
      :: start_chat
      :: map send_message (messages stdin).
Proof.
  intros Hk Hne. unfold main. rewrite Hk. simpl.
  destruct (Str.falsy key) eqn:F.
  { apply StrFacts.falsy_empty in F. contradiction. }
  unfold chat. pose proof (loop_calls_messages new_session stdin) as Hc.
  destruct (loop new_session stdin) as [t o]. simpl in *. rewrite Hc. reflexivity.
Qed.

(** X2: the session a run ends with is the first session after the
    [send_message] calls for the messages of the input, each call made on
    the session the call before left; blank lines and the exit line do not
    touch it. *)
Theorem session_is_threaded_through_the_messages chat_session stdin :
  snd (run chat_session stdin) =
    fold_left (fun s content => snd (answer s content)) (messages stdin) chat_session.
Proof.
  revert chat_session. induction stdin as [|line rest IH]; intros chat_session;
    [reflexivity|].
  simpl run.
  destruct (turn_cases chat_session line)
    as [[Hx Ht] | [[He Ht] | (Hx & Hne & out & _ & Ht)]]; rewrite Ht; simpl snd.
  - rewrite (messages_exit _ _ Hx). reflexivity.
  - rewrite (messages_blank _ _ He). apply IH.
  - rewrite (messages_send _ _ Hx Hne). simpl. apply IH.
Qed.

(** X3: every text the loop hands to [send_message] is non-empty, has no
    whitespace at either end, and is not an exit keyword in any letter
    case; the loop calls nothing else. *)
Theorem sent_texts_are_stripped_and_non_empty chat_session stdin :
  Forall (fun c => exists content,
            c = send_message content
            /\ content <> EmptyString
            /\ Str.strip content = content
            /\ Str.lower content ∉ exit_keywords)
    (calls (fst (loop chat_session stdin))).
Proof.
  rewrite loop_calls_messages. clear chat_session.
  induction stdin as [|line rest IH]; [constructor|].
  destruct (decide (Str.lower (Str.strip line) ∈ exit_keywords)) as [Hx|Hx].
  { rewrite (messages_exit _ _ Hx). constructor. }
  destruct (decide (Str.strip line = EmptyString)) as [He|Hne].
  { rewrite (messages_blank _ _ He). exact IH. }
  rewrite (messages_send _ _ Hx Hne). simpl. constructor; [|exact IH].
  exists (Str.strip line). rewrite StrMore.strip_idem. auto.
Qed.

(** X4: when no line of the input is an exit keyword, every line is read,
    the loop prompts once more, and the process ends with the [EOFError]
    that [input] raises at the end of the input. *)
Theorem input_without_exit_keyword_ends_in_EOFError chat_session stdin :
  Forall (fun line => Str.lower (Str.strip line) ∉ exit_keywords) stdin ->
  snd (loop chat_session stdin) = Uncaught EOFError
  /\ reads (fst (loop chat_session stdin)) = map Some stdin ++ [None]
  /\ exists t, fst (loop chat_session stdin) = t ++ [Input prompt None].
Proof.
  intros H. revert chat_session.
  induction H as [|line rest Hx _ IH]; intros chat_session.
  { simpl. split; [reflexivity|]. split; [reflexivity|]. exists []. reflexivity. }
  assert (Hc : exists t s', turn chat_session line = (t, Continue s') /\ reads t = []).
  { destruct (turn_cases chat_session line)
      as [[Hx' _] | [[_ Ht] | (_ & _ & out & _ & Ht)]]; [contradiction| |];
      rewrite Ht; eauto. }
  destruct Hc as (t & s' & Ht & Hr).
  rewrite (loop_continue _ _ _ rest _ Ht). simpl.
  destruct (IH s') as (Ho & Hreads & t' & Hlast).
  split; [exact Ho|]. split.
  - rewrite reads_app, Hr, Hreads. reflexivity.
  - exists (Input prompt (Some line) :: t ++ t'). rewrite Hlast.
    rewrite app_comm_cons, app_assoc. reflexivity.
Qed.

(** X5: the loop stops at an exit keyword wherever it stands in the input:
    the lines behind it are never read and change nothing. *)
Theorem nothing_is_read_after_an_exit_keyword chat_session pre line rest :
  Str.lower (Str.strip line) ∈ exit_keywords ->
  loop chat_session (pre ++ line :: rest) = loop chat_session (pre ++ [line]).
Proof.
  intros Hx. revert chat_session. induction pre as [|p pre IH]; intros chat_session.
  - pose proof (turn_exit chat_session line Hx) as Ht.
    simpl app. rewrite (loop_break _ _ rest _ Ht), (loop_break _ _ [] _ Ht). reflexivity.
  - simpl. destruct (turn chat_session p) as [t [s'|]]; [|reflexivity].
    rewrite (IH s'). reflexivity.
Qed.

(** X6: whitespace before and after a line changes nothing of what the
    loop body does with it. *)
Theorem padding_a_line_changes_nothing chat_session (pre post : string) line :
  Str.blank pre = true -> Str.blank post = true ->
  turn chat_session (pre +:+ line +:+ post) = turn chat_session line.
Proof.
  intros Hp Hq. unfold turn. rewrite (StrMore.strip_pad pre line post Hp Hq). reflexivity.
Qed.

(** X7: the letter case of a line does not decide whether the loop ends: a
    line ends the loop exactly when its lowercase form does. *)
Theorem letter_case_does_not_matter_for_exit chat_session line :
  snd (turn chat_session (Str.lower line)) = Break <->
  snd (turn chat_session line) = Break.
Proof.
  rewrite !turn_break_iff, StrMore.strip_lower, StrMore.lower_idem. reflexivity.
Qed.

(** X8: what the loop prints over a whole run is, for the messages of the
    input in their order, the line for what the service answered to each
    (a line feed and "Bot: " with the reply's text, or a line feed and
    "Error: " with the exception's text), each message answered on the
    session the one before left; then "Goodbye!" exactly when the run
    ended on an exit keyword.  There is one line per message. *)
Theorem one_printed_line_per_message_then_farewell chat_session stdin :
  printed (fst (loop chat_session stdin)) =
    Dialogue.replies chat_session (messages stdin)
      ++ match snd (loop chat_session stdin) with
         | Exit0 => ["Goodbye!"]
         | Uncaught _ => []
         end
  /\ length (Dialogue.replies chat_session (messages stdin)) = length (messages stdin).
Proof.
  revert chat_session. induction stdin as [|line rest IH]; intros chat_session.
  { simpl. auto. }
  destruct (decide (Str.lower (Str.strip line) ∈ exit_keywords)) as [Hx|Hx].
  { rewrite (loop_break _ _ rest _ (turn_exit chat_session line Hx)),
      (messages_exit _ _ Hx). simpl. auto. }
  destruct (decide (Str.strip line = EmptyString)) as [He|Hne].
  { pose proof (turn_blank chat_session line (proj1 (StrFacts.strip_empty line) He)) as Ht.
    rewrite (loop_continue _ _ _ rest _ Ht), (messages_blank _ _ He). simpl. apply IH. }
  rewrite (loop_continue _ _ _ rest _ (turn_send chat_session line Hne Hx)),
    (messages_send _ _ Hx Hne).
  destruct (IH (snd (answer chat_session (Str.strip line)))) as (Hp & Hl).
  simpl. rewrite Hp, Hl. split; reflexivity.
Qed.

(** X9: blank lines only cost a prompt: with them taken out of the input,
    the run makes the same calls, prints the same lines and ends the same
    way. *)
Theorem blank_lines_only_cost_a_prompt chat_session stdin :
  calls (fst (loop chat_session stdin)) = calls (fst (loop chat_session (without_blanks stdin)))
  /\ printed (fst (loop chat_session stdin))
     = printed (fst (loop chat_session (without_blanks stdin)))
  /\ snd (loop chat_session stdin) = snd (loop chat_session (without_blanks stdin)).
Proof.
  revert chat_session. induction stdin as [|line rest IH]; intros chat_session.
  { simpl. auto. }
  unfold without_blanks. simpl List.filter. fold (without_blanks rest).
  destruct (Str.blank line) eqn:B; simpl negb; cbv iota.
  - pose proof (turn_blank chat_session line B) as Ht.
    rewrite (loop_continue _ _ _ rest _ Ht). simpl. apply IH.
  - simpl loop. destruct (turn chat_session line) as [t [s'|]]; [|auto].
    destruct (IH s') as (Hc & Hp & Ho).
    destruct (loop s' rest) as [t1 o1], (loop s' (without_blanks rest)) as [t2 o2].
    simpl in *. rewrite !calls_app, !printed_app, Hc, Hp, Ho. auto.
Qed.

(** X10: an empty GEMINI_API_KEY in the environment hides the key of the
    .env file: the script raises its [ValueError] whatever the file
    holds. *)
Theorem empty_environment_key_hides_dotenv
  (environ dotenv : gmap string string) stdin :
  environ !! "GEMINI_API_KEY" = Some EmptyString ->
  main environ dotenv stdin = ([], Uncaught missing_key).
Proof.
  intros H. unfold main, API_KEY, getenv, load_dotenv.
  rewrite (lookup_union_Some_l environ dotenv _ _ H). reflexivity.
Qed.

End Run.

End ChatbotRun.

(** ** Whole runs of the lister *)

Module ListModelsRun.
Import ListModels ListModelsFacts.

Lemma name_lines_block (model : Model) (lines : list string) :
  List.filter (String.prefix "Name: ") (block model ++ lines)
  = ("Name: " +:+ name model) :: List.filter (String.prefix "Name: ") lines.
Proof.
  unfold block. cbv [String.append]. simpl.
  destruct (name model); reflexivity.
Qed.

(** X11: whatever the catalog holds and however the enumeration ends, the
    script calls the library exactly twice: [configure], with the key of
    the environment if it has one and else the key of the .env file (or
    [None]), and [list_models], once. *)
Theorem lister_configures_and_lists_once
  (environ dotenv : gmap string string) (catalog : iterator Model) :
  calls (fst (main environ dotenv catalog)) =
    [ configure match environ !! "GEMINI_API_KEY" with
                | Some key => Some key
                | None => dotenv !! "GEMINI_API_KEY"
                end;
      list_models ].
Proof.
  rewrite main_trace. simpl. rewrite for_model_calls.
  unfold getenv, load_dotenv.
  destruct (environ !! "GEMINI_API_KEY") as [key|] eqn:E.
  - rewrite (lookup_union_Some_l environ dotenv _ _ E). reflexivity.
  - rewrite (lookup_union_r environ dotenv _ E). reflexivity.
Qed.

(** X12: the models are listed in the order the catalog yields them: the
    "Name: " lines of the output are the names of the yielded models
    that generate content, in that order, also when the enumeration
    fails part-way. *)
Theorem models_are_listed_in_catalog_order
  (environ dotenv : gmap string string) (catalog : iterator Model) :
  List.filter (String.prefix "Name: ") (printed (fst (main environ dotenv catalog)))
  = map (fun model => "Name: " +:+ name model) (List.filter generates (yielded catalog)).
Proof.
  rewrite main_printed.
  change (List.filter (String.prefix "Name: ")
            (concat (map (fun model => if generates model then block model else [])
                       (yielded catalog)))
          = map (fun model => "Name: " +:+ name model)
              (List.filter generates (yielded catalog))).
  induction (yielded catalog) as [|model models IH]; [reflexivity|].
  simpl. destruct (generates model).
  - rewrite name_lines_block, IH. reflexivity.
  - exact IH.
Qed.

(** X13: the lister exits normally exactly when the enumeration of the
    catalog ends without an exception; an empty catalog is such a case. *)
Theorem lister_exits_normally_iff_enumeration_completes
  (environ dotenv : gmap string string) (catalog : iterator Model) :
  snd (main environ dotenv catalog) = Exit0 <-> failure catalog = None.
Proof.
  rewrite main_outcome, for_model_outcome.
  destruct (failure catalog); split; congruence.
Qed.

(** X14: the output has two lines and four more for each yielded model
    that generates content. *)
Theorem lister_prints_four_lines_per_model
  (environ dotenv : gmap string string) (catalog : iterator Model) :
  length (printed (fst (main environ dotenv catalog)))
  = 2 + 4 * length (List.filter generates (yielded catalog)).
Proof.
  rewrite main_printed.
  assert (H : forall models : list Model,
             length (concat (map (fun model => if generates model then block model else [])
                               models))
             = 4 * length (List.filter generates models)).
  { induction models as [|model models IH]; [reflexivity|].
    simpl map. simpl concat. simpl List.filter.
    destruct (generates model); [|exact IH].
    rewrite length_app, IH. simpl length. lia. }
  simpl length. rewrite H. reflexivity.
Qed.

End ListModelsRun.

(** ** The whole-run properties at concrete inputs *)

Module RunWitness.
Import Chatbot ChatbotFacts Transcript.

(** X1 on the input "hello", a blank line, "quit". *)
Lemma run_calls_the_library_in_order_witness :
  API_KEY (load_dotenv Demo.with_key ∅) = Some "secret"
  /\ "secret" <> EmptyString
  /\ calls (fst (@main Demo.flaky Demo.with_key ∅ ["hello"; " "; "quit"])) =
       [ configure (Some "secret");
         GenerativeModel "gemini-2.5-flash" CRYPTO_SYSTEM_INSTRUCTION;
         start_chat;
         send_message "hello" ].
Proof.
  assert (H1 : API_KEY (load_dotenv Demo.with_key ∅) = Some "secret")
    by (vm_compute; reflexivity).
  assert (H2 : "secret" <> EmptyString) by discriminate.
  split; [exact H1|]. split; [exact H2|].
  exact (@ChatbotRun.run_calls_the_library_in_order Demo.flaky Demo.with_key ∅
           ["hello"; " "; "quit"] "secret" H1 H2).
Defined.

(** X4 on an input of two lines, neither an exit keyword. *)
Lemma input_without_exit_keyword_ends_in_EOFError_witness :
  Forall (fun line => Str.lower (Str.strip line) ∉ exit_keywords) ["hi"; EmptyString]
  /\ snd (@loop Demo.flaky (@new_session Demo.flaky) ["hi"; EmptyString])
     = Uncaught EOFError.
Proof.
  assert (H : Forall (fun line => Str.lower (Str.strip line) ∉ exit_keywords)
                ["hi"; EmptyString]).
  { repeat constructor; by_evaluation. }
  split; [exact H|].
  exact (proj1 (@ChatbotRun.input_without_exit_keyword_ends_in_EOFError Demo.flaky
                  (@new_session Demo.flaky) ["hi"; EmptyString] H)).
Defined.

(** X5 on "bye" in the middle of an input. *)
Lemma nothing_is_read_after_an_exit_keyword_witness :
  (Str.lower (Str.strip "bye") ∈ exit_keywords)
  /\ @loop Demo.flaky (@new_session Demo.flaky) (["a"] ++ "bye" :: ["b"; "c"])
     = @loop Demo.flaky (@new_session Demo.flaky) (["a"] ++ ["bye"]).
Proof.
  assert (H : Str.lower (Str.strip "bye") ∈ exit_keywords) by by_evaluation.
  split; [exact H|].
  exact (@ChatbotRun.nothing_is_read_after_an_exit_keyword Demo.flaky
           (@new_session Demo.flaky) ["a"] "bye" ["b"; "c"] H).
Defined.

(** X6 on "hello" between two spaces and a tab. *)
Lemma padding_a_line_changes_nothing_witness :
  Str.blank "  " = true
  /\ Str.blank (String "009" EmptyString) = true
  /\ @turn Demo.flaky (@new_session Demo.flaky)
       ("  " +:+ "hello" +:+ String "009" EmptyString)
     = @turn Demo.flaky (@new_session Demo.flaky) "hello".
Proof.
  assert (H1 : Str.blank "  " = true) by reflexivity.
  assert (H2 : Str.blank (String "009" EmptyString) = true) by reflexivity.
  split; [exact H1|]. split; [exact H2|].
  exact (@ChatbotRun.padding_a_line_changes_nothing Demo.flaky
           (@new_session Demo.flaky) "  " (String "009" EmptyString) "hello" H1 H2).
Defined.

(** X10 on an environment with an empty key and a .env file with a key. *)
Lemma empty_environment_key_hides_dotenv_witness :
  Demo.with_empty_key !! "GEMINI_API_KEY" = Some EmptyString
  /\ Demo.with_key !! "GEMINI_API_KEY" = Some "secret"
  /\ @main Demo.flaky Demo.with_empty_key Demo.with_key ["hello"]
     = ([], Uncaught missing_key).
Proof.
  assert (H : Demo.with_empty_key !! "GEMINI_API_KEY" = Some EmptyString)
    by (vm_compute; reflexivity).
  split; [exact H|]. split; [vm_compute; reflexivity|].
  exact (@ChatbotRun.empty_environment_key_hides_dotenv Demo.flaky
           Demo.with_empty_key Demo.with_key ["hello"] H).
Defined.

End RunWitness.

(** ** How the chat script ends *)

Module ChatbotExit.
Import Chatbot ChatbotFacts.

(** X15: the chat script ends in one of three ways, decided by the key and
    the input alone: with its [ValueError] when the key is absent or
    empty; normally when the key is usable and some line is an exit
    keyword; with the [EOFError] of [input] when the key is usable and the
    input ends without one.  What the service answers never ends the
    process. *)
Theorem chatbot_ends_in_one_of_three_ways {service : ChatService}
  (environ dotenv : gmap string string) (stdin : list string) :
  snd (main environ dotenv stdin) =
    if not_ (API_KEY (load_dotenv environ dotenv)) then Uncaught missing_key
    else if bool_decide (Exists (fun line => Str.lower (Str.strip line) ∈ exit_keywords) stdin)
         then Exit0
         else Uncaught EOFError.
Proof.
  unfold main. destruct (not_ (API_KEY (load_dotenv environ dotenv))); [reflexivity|].
  unfold chat.
  pose proof (loop_outcome new_session stdin) as Ho.
  pose proof (run_terminated_iff new_session stdin) as Hr.
  destruct (loop new_session stdin) as [t o]. simpl in *. rewrite Ho.
  case_bool_decide as Hx.
  - apply Hr in Hx. rewrite Hx. reflexivity.
  - destruct (fst (run new_session stdin)); [reflexivity|].
    exfalso. apply Hx, Hr. reflexivity.
Qed.

End ChatbotExit.
